(** * preprod_migration.py: a shallow embedding and its verified properties

    The script shells out to [pg_dump] and [psql], writes one file, asks one
    question on standard input and prints status text.  Everything it does is
    an effect, so the embedding is a small state-and-exception monad over a
    [World] that records

    - the dictionary objects of the interpreter ([os.environ] and its copies),
    - the files as the script sees them,
    - the sequence of observable events (prints, prompts, file operations,
      subprocess invocations) in program order.

    What the outside gives back (the result of a subprocess, the line typed
    at the prompt) is supplied by an [Outside] value over which every theorem
    quantifies.  The model covers the runs in which the operating-system calls
    return: the executables exist, the file can be opened for writing and
    standard input delivers a line.

    A Python [str] is modelled as a [string] whose characters are the code
    points 0..255; [str.lower] is Python's lower-casing on that range. *)

From Stdlib Require Import ZArith Ascii String List Lia.
From stdpp Require Import base gmap strings list pretty.
Import ListNotations.

Local Open Scope string_scope.
Local Open Scope Z_scope.

(** ** Python strings *)

Definition nl : string := String (ascii_of_nat 10) EmptyString.

(** [s * n] *)
Fixpoint str_mul (s : string) (n : nat) : string :=
  match n with
  | O => ""
  | S n' => s +:+ str_mul s n'
  end.

(** [s[:n]] *)
Fixpoint slice_upto (n : nat) (s : string) {struct s} : string :=
  match s, n with
  | String c s', S n' => String c (slice_upto n' s')
  | _, _ => ""
  end.

(** Lower-casing of one code point below 256: the ASCII capitals and the
    Latin-1 capitals U+00C0..U+00DE (U+00D7, the multiplication sign, is not a
    letter) move up by 32; every other code point is left alone. *)
Definition lower_char (c : ascii) : ascii :=
  let n := N_of_ascii c in
  if ((65 <=? n) && (n <=? 90) ||
      (192 <=? n) && (n <=? 222) && negb (n =? 215))%N
  then ascii_of_N (n + 32) else c.

(** [s.lower()] *)
Fixpoint lower (s : string) : string :=
  match s with
  | EmptyString => EmptyString
  | String c s' => String (lower_char c) (lower s')
  end.

(** The value of an expression that is a [str] or [None]. *)
Abbreviation pystr := (option string).

(** Truth value of a [str]-or-[None] in a condition: [None] and the empty
    string are false. *)
Definition truthy (v : pystr) : bool :=
  match v with
  | Some (String _ _) => true
  | _ => false
  end.

(** What an f-string substitutes for a [str]-or-[None]. *)
Definition fmt (v : pystr) : string :=
  match v with
  | Some s => s
  | None => "None"
  end.

(** ** The world *)

Definition loc := nat.

(** [os.environ] is one dictionary object of the interpreter. *)
Definition os_environ : loc := 0%nat.

Inductive Event :=
| EvPrint (line : string)
| EvInput (prompt answer : string)
| EvOpen (path : string)
| EvWrite (path data : string)
| EvClose (path : string)
| EvRun (cmd : list string) (env : gmap string string) (capture_output : bool).

Record World := mkWorld {
  heap : gmap loc (gmap string string);
  files : gmap string string;
  trace : list Event
}.

(** What a finished child process hands back to [subprocess.run]. *)
Record ProcExit := mkProcExit {
  exit_status : Z;
  out_text : string;
  err_text : string
}.

(** The part of a run that the script does not decide. *)
Record Outside := mkOutside {
  spawn : list string -> gmap string string -> World -> ProcExit;
  read_line : string -> World -> string
}.

(** [subprocess.CompletedProcess]: the streams are [None] unless captured. *)
Record CompletedProcess := mkCompleted {
  returncode : Z;
  stdout : pystr;
  stderr : pystr
}.

(** ** The monad *)

Inductive Exn :=
| TypeError (what : string).

Inductive Outcome (A : Type) :=
| Returned (a : A)
| Raised (e : Exn).
Arguments Returned {A} a.
Arguments Raised {A} e.

Definition M (A : Type) : Type := World -> Outcome A * World.

Definition ret {A} (a : A) : M A := fun w => (Returned a, w).

Definition raise {A} (e : Exn) : M A := fun w => (Raised e, w).

Definition bind {A B} (c : M A) (k : A -> M B) : M B :=
  fun w =>
    match c w with
    | (Returned a, w') => k a w'
    | (Raised e, w') => (Raised e, w')
    end.

(** [try: c finally: h] *)
Definition finally {A} (c : M A) (h : M unit) : M A :=
  fun w =>
    match c w with
    | (r, w') =>
        match h w' with
        | (Returned _, w'') => (r, w'')
        | (Raised e, w'') => (Raised e, w'')
        end
    end.

Declare Scope py_scope.
Delimit Scope py_scope with py.
Notation "x <- c ;; k" := (bind c (fun x => k))
  (at level 100, c at next level, right associativity) : py_scope.
Notation "c ;; k" := (bind c (fun _ => k))
  (at level 100, right associativity) : py_scope.
Local Open Scope py_scope.
Local Open Scope list_scope.

Definition emit (e : Event) : M unit :=
  fun w => (Returned tt, mkWorld (heap w) (files w) (trace w ++ [e])).

(** ** Built-ins *)

(** [print(s)] *)
Definition print (s : string) : M unit := emit (EvPrint s).

(** [len(v)] *)
Definition len (v : pystr) : M nat :=
  match v with
  | Some s => ret (String.length s)
  | None => raise (TypeError "object of type 'NoneType' has no len()")
  end.

(** The dictionary stored at [l]. *)
Definition deref (w : World) (l : loc) : gmap string string :=
  default ∅ (heap w !! l).

(** [d.copy()]: a new dictionary object with the same items. *)
Definition dict_copy (l : loc) : M loc :=
  fun w =>
    let l' := fresh ({[os_environ]} ∪ dom (heap w)) in
    (Returned l', mkWorld (<[l' := deref w l]> (heap w)) (files w) (trace w)).

(** [d[k] = v] *)
Definition dict_setitem (l : loc) (k v : string) : M unit :=
  fun w =>
    (Returned tt,
     mkWorld (<[l := <[k := v]> (deref w l)]> (heap w)) (files w) (trace w)).

(** [open(path, 'w')]: the file is created or truncated.  The file object is
    modelled by its path. *)
Definition open_w (path : string) : M string :=
  fun w =>
    (Returned path,
     mkWorld (heap w) (<[path := ""]> (files w)) (trace w ++ [EvOpen path])).

(** [f.write(v)] *)
Definition file_write (f : string) (v : pystr) : M unit :=
  match v with
  | Some s =>
      fun w =>
        (Returned tt,
         mkWorld (heap w)
           (<[f := default "" (files w !! f) +:+ s]> (files w))
           (trace w ++ [EvWrite f s]))
  | None => raise (TypeError "write() argument must be str, not None")
  end.

Definition file_close (f : string) : M unit := emit (EvClose f).

(** [with open(path, 'w') as f: body] *)
Definition with_open_w (path : string) (body : string -> M unit) : M unit :=
  f <- open_w path ;;
  finally (body f) (file_close f).

(** ** The module's global names *)

Record Globals := mkGlobals {
  SOURCE_HOST : string;
  SOURCE_PORT : string;
  SOURCE_USER : string;
  SOURCE_DB : string;
  TARGET_HOST : string;
  TARGET_PORT : string;
  TARGET_USER : string;
  TARGET_DB : string;
  PASSWORD : string;
  REQUIRED_TABLES : list string;
  EXCLUDED_TABLES : list string
}.

Definition module_globals : Globals := {|
  SOURCE_HOST := "aws-1-ap-southeast-1.pooler.supabase.com";
  SOURCE_PORT := "5432";
  SOURCE_USER := "postgres.bamybvzufxijghzqdytu";
  SOURCE_DB := "postgres";
  TARGET_HOST := "aws-1-ap-southeast-1.pooler.supabase.com";
  TARGET_PORT := "5432";
  TARGET_USER := "postgres.jqihlckqrhdxszgwuymu";
  TARGET_DB := "postgres";
  PASSWORD := "Turun_2020-";
  REQUIRED_TABLES := [
    "roles"; "users"; "organization_types"; "organizations";
    "regions"; "states"; "districts";
    "brands"; "product_categories"; "product_groups"; "product_subgroups";
    "products"; "product_variants"; "product_attributes"; "product_images";
    "product_pricing"; "product_inventory"; "product_skus";
    "orders"; "order_items"; "payment_terms";
    "qr_batches"; "qr_codes"; "qr_master_codes"; "qr_movements";
    "qr_prepared_codes"; "qr_reverse_jobs"; "qr_reverse_job_items";
    "qr_reverse_job_logs"; "qr_secret_codes"; "qr_validation_reports";
    "documents"; "document_files"; "document_signatures"; "doc_counters";
    "stock_movements"; "stock_transfers"; "stock_adjustments";
    "stock_adjustment_items"; "stock_adjustment_reasons";
    "stock_adjustment_manufacturer_actions"; "wms_movement_dedup";
    "distributor_products"; "shop_distributors";
    "journey_configurations"; "journey_order_links";
    "lucky_draw_campaigns"; "lucky_draw_entries"; "lucky_draw_order_links";
    "scratch_card_campaigns"; "scratch_card_rewards"; "scratch_card_plays";
    "spin_wheel_campaigns"; "spin_wheel_rewards"; "spin_wheel_plays";
    "daily_quiz_campaigns"; "daily_quiz_questions"; "daily_quiz_plays";
    "points_rules"; "points_transactions"; "point_rewards";
    "consumer_activations"; "consumer_feedback"; "consumer_qr_scans";
    "redeem_items"; "redeem_gifts"; "redeem_gift_transactions";
    "redemption_policies"; "redemption_orders"; "redemption_order_limits";
    "redemption_gifts";
    "notification_types"; "notification_settings";
    "notification_provider_configs"; "notification_logs";
    "notifications_outbox"; "org_notification_settings"; "message_templates";
    "email_send_log";
    "otp_challenges";
    "audit_logs"
  ];
  EXCLUDED_TABLES := []
|}.

(** ** The script *)

Section Script.

Variable o : Outside.
Variable g : Globals.

(** [input(prompt)] *)
Definition input (prompt : string) : M string :=
  fun w =>
    let answer := read_line o prompt w in
    (Returned answer,
     mkWorld (heap w) (files w) (trace w ++ [EvInput prompt answer])).

(** [subprocess.run(cmd, env=env, capture_output=capture_output, text=True)] *)
Definition subprocess_run (cmd : list string) (env : loc)
    (capture_output : bool) : M CompletedProcess :=
  fun w =>
    let e := deref w env in
    let x := spawn o cmd e w in
    (Returned
       (mkCompleted (exit_status x)
          (if capture_output then Some (out_text x) else None)
          (if capture_output then Some (err_text x) else None)),
     mkWorld (heap w) (files w) (trace w ++ [EvRun cmd e capture_output])).

(** The argument list built by [run_psql]. *)
Definition run_psql_cmd (host user db sql : string) : list string :=
  ["psql";
   "-h"; host;
   "-p"; "5432";
   "-U"; user;
   "-d"; db;
   "--set"; "ON_ERROR_STOP=on";
   "-c"; sql].

Definition run_psql (host user db sql : string) (capture_output : bool)
    : M CompletedProcess :=
  env <- dict_copy os_environ ;;
  dict_setitem env "PGPASSWORD" (PASSWORD g) ;;
  let cmd := run_psql_cmd host user db sql in
  result <- subprocess_run cmd env capture_output ;;
  (if negb (returncode result =? 0)
   then print ("Error: " +:+ fmt (stderr result))
   else ret tt) ;;
  ret result.

(** The argument list built by [run_psql_file]. *)
Definition run_psql_file_cmd (host user db filename : string) : list string :=
  ["psql";
   "-h"; host;
   "-p"; "5432";
   "-U"; user;
   "-d"; db;
   "-f"; filename].

Definition run_psql_file (host user db filename : string)
    : M CompletedProcess :=
  env <- dict_copy os_environ ;;
  dict_setitem env "PGPASSWORD" (PASSWORD g) ;;
  let cmd := run_psql_file_cmd host user db filename in
  result <- subprocess_run cmd env true ;;
  ret result.

(** The argument list built by [pg_dump_schema]: the fixed part, then
    [cmd.append] and one [cmd.extend] per table. *)
Definition pg_dump_cmd (tables : option (list string)) (include_data : bool)
    : list string :=
  let cmd :=
    ["pg_dump";
     "-h"; SOURCE_HOST g;
     "-p"; SOURCE_PORT g;
     "-U"; SOURCE_USER g;
     "-d"; SOURCE_DB g;
     "--no-owner";
     "--no-acl";
     "-n"; "public"] in
  let cmd :=
    if negb include_data then (cmd ++ ["--schema-only"])%list else cmd in
  match tables with
  | Some ((_ :: _) as ts) =>
      fold_left (fun cmd table => (cmd ++ ["-t"; "public." +:+ table])%list)
        ts cmd
  | _ => cmd
  end.

Definition pg_dump_schema (tables : option (list string))
    (include_data : bool) : M pystr :=
  env <- dict_copy os_environ ;;
  dict_setitem env "PGPASSWORD" (PASSWORD g) ;;
  let cmd := pg_dump_cmd tables include_data in
  result <- subprocess_run cmd env true ;;
  ret (stdout result).

(** The excerpt printed when the apply step fails:
    [result.stderr[:2000] if result.stderr else "No error output"].
    The slice is taken of a true value only, and [None] is false. *)
Definition stderr_excerpt (v : pystr) : string :=
  if truthy v then
    match v with
    | Some s => slice_upto 2000 s
    | None => ""
    end
  else "No error output".

Definition main : M unit :=
  print (str_mul "=" 60) ;;
  print "PREPROD DATABASE MIGRATION" ;;
  print (str_mul "=" 60) ;;
  print (nl +:+ "[Step 1] Exporting schema from source database...") ;;
  schema_sql <- pg_dump_schema None false ;;
  with_open_w "preprod_schema_export.sql"
    (fun f => file_write f schema_sql) ;;
  n <- len schema_sql ;;
  print ("Schema exported to preprod_schema_export.sql ("
         +:+ pretty n +:+ " bytes)") ;;
  print (nl +:+ "[Step 2] This will apply schema to target database.") ;;
  print ("Target: " +:+ TARGET_HOST g +:+ " / " +:+ TARGET_USER g) ;;
  confirm <- input "Continue? (yes/no): " ;;
  if negb (String.eqb (lower confirm) "yes") then
    print "Aborted."
  else
    result <- run_psql_file (TARGET_HOST g) (TARGET_USER g) (TARGET_DB g)
                "preprod_schema_export.sql" ;;
    (if returncode result =? 0 then
       print "Schema applied successfully!"
     else
       print "Schema application had issues:" ;;
       print (stderr_excerpt (stderr result))) ;;
    print (nl +:+ "[Step 3] Migration complete!") ;;
    print (nl +:+ "Next steps:") ;;
    print "1. Migrate admin user manually" ;;
    print "2. Update preprod environment variables" ;;
    print "3. Test login functionality".

End Script.

(** ** What a run is observed to do

    The definitions below describe, in closed form, the worlds and events of a
    run; [main_run] proves that they are what [main] computes. *)

(** The location that [dict_copy] allocates in heap [h]. *)
Definition new_loc (h : gmap loc (gmap string string)) : loc :=
  fresh ({[os_environ]} ∪ dom h).

(** The environment handed to a child: the items of [os.environ] with
    [PGPASSWORD] set. *)
Definition child_env (g : Globals) (h : gmap loc (gmap string string))
    : gmap string string :=
  <["PGPASSWORD" := PASSWORD g]> (default ∅ (h !! os_environ)).

(** The heap once a helper has made and filled its copy. *)
Definition with_env (g : Globals) (h : gmap loc (gmap string string))
    : gmap loc (gmap string string) :=
  <[new_loc h := child_env g h]> h.

(** The commands of the subprocess invocations of a trace, in order. *)
Fixpoint runs (t : list Event) : list (list string) :=
  match t with
  | [] => []
  | EvRun cmd _ _ :: t' => cmd :: runs t'
  | _ :: t' => runs t'
  end.

(** The environments of the subprocess invocations of a trace, in order. *)
Fixpoint run_envs (t : list Event) : list (gmap string string) :=
  match t with
  | [] => []
  | EvRun _ env _ :: t' => env :: run_envs t'
  | _ :: t' => run_envs t'
  end.

(** The file operations of a trace, in order. *)
Fixpoint file_events (t : list Event) : list Event :=
  match t with
  | [] => []
  | (EvOpen _ | EvWrite _ _ | EvClose _) as e :: t' => e :: file_events t'
  | _ :: t' => file_events t'
  end.

Definition is_print (e : Event) : bool :=
  match e with
  | EvPrint _ => true
  | _ => false
  end.

Section Observed.

Variable o : Outside.
Variable g : Globals.
Variable w : World.

Definition banner : list Event :=
  [EvPrint (str_mul "=" 60);
   EvPrint "PREPROD DATABASE MIGRATION";
   EvPrint (str_mul "=" 60);
   EvPrint (nl +:+ "[Step 1] Exporting schema from source database...")].

(** The world in which the dump runs. *)
Definition dump_world : World :=
  mkWorld (with_env g (heap w)) (files w) (trace w ++ banner).

Definition dump_event : Event :=
  EvRun (pg_dump_cmd g None false) (child_env g (heap w)) true.

(** What the dump hands back. *)
Definition dump_exit : ProcExit :=
  spawn o (pg_dump_cmd g None false) (child_env g (heap w)) dump_world.

Definition export_events : list Event :=
  [dump_event;
   EvOpen "preprod_schema_export.sql";
   EvWrite "preprod_schema_export.sql" (out_text dump_exit);
   EvClose "preprod_schema_export.sql";
   EvPrint ("Schema exported to preprod_schema_export.sql ("
            +:+ pretty (String.length (out_text dump_exit)) +:+ " bytes)");
   EvPrint (nl +:+ "[Step 2] This will apply schema to target database.");
   EvPrint ("Target: " +:+ TARGET_HOST g +:+ " / " +:+ TARGET_USER g)].

(** The world in which the question is asked. *)
Definition prompt_world : World :=
  mkWorld (with_env g (heap w))
    (<["preprod_schema_export.sql" := out_text dump_exit]> (files w))
    (trace w ++ banner ++ export_events).

Definition answer : string :=
  read_line o "Continue? (yes/no): " prompt_world.

Definition prompt_event : Event := EvInput "Continue? (yes/no): " answer.

(** The world in which the apply step runs. *)
Definition apply_world : World :=
  mkWorld (with_env g (with_env g (heap w))) (files prompt_world)
    (trace w ++ banner ++ export_events ++ [prompt_event]).

Definition apply_cmd : list string :=
  run_psql_file_cmd (TARGET_HOST g) (TARGET_USER g) (TARGET_DB g)
    "preprod_schema_export.sql".

Definition apply_event : Event :=
  EvRun apply_cmd (child_env g (heap w)) true.

(** What the apply step hands back. *)
Definition apply_exit : ProcExit :=
  spawn o apply_cmd (child_env g (heap w)) apply_world.

Definition apply_report : list Event :=
  if exit_status apply_exit =? 0 then
    [EvPrint "Schema applied successfully!"]
  else
    [EvPrint "Schema application had issues:";
     EvPrint (stderr_excerpt (Some (err_text apply_exit)))].

Definition closing : list Event :=
  [EvPrint (nl +:+ "[Step 3] Migration complete!");
   EvPrint (nl +:+ "Next steps:");
   EvPrint "1. Migrate admin user manually";
   EvPrint "2. Update preprod environment variables";
   EvPrint "3. Test login functionality"].

(** The user confirmed: [confirm.lower() == 'yes']. *)
Definition confirmed : bool := String.eqb (lower answer) "yes".

(** Everything after the question. *)
Definition after_prompt : list Event :=
  if confirmed then apply_event :: apply_report ++ closing
  else [EvPrint "Aborted."].

(** All events of a run of [main], in order. *)
Definition main_events : list Event :=
  banner ++ export_events ++ prompt_event :: after_prompt.

(** The world that [main] leaves behind. *)
Definition main_world : World :=
  mkWorld
    (if confirmed then heap apply_world else heap prompt_world)
    (files prompt_world)
    (trace w ++ main_events).

End Observed.

(** ** Vocabulary of the statements *)

(** The module with another value bound to [REQUIRED_TABLES]. *)
Definition set_required_tables (ts : list string) (g : Globals) : Globals :=
  mkGlobals (SOURCE_HOST g) (SOURCE_PORT g) (SOURCE_USER g) (SOURCE_DB g)
    (TARGET_HOST g) (TARGET_PORT g) (TARGET_USER g) (TARGET_DB g)
    (PASSWORD g) ts (EXCLUDED_TABLES g).

(** Is this the command line of a [pg_dump] invocation? *)
Definition is_dump (cmd : list string) : bool :=
  match cmd with
  | prog :: _ => String.eqb prog "pg_dump"
  | [] => false
  end.

(** An outside in which every [pg_dump] exits with status [rc] and is
    otherwise as in [o]. *)
Definition force_dump_status (rc : Z) (o : Outside) : Outside :=
  mkOutside
    (fun cmd env w =>
       let x := spawn o cmd env w in
       if is_dump cmd then mkProcExit rc (out_text x) (err_text x) else x)
    (read_line o).

(** The steps of the sequence, as they show in the trace. *)
Inductive Step :=
| StExport
| StWrite (path : string)
| StConfirm
| StApply (file : option string).


Definition step_of (e : Event) : option Step :=
  match e with
  | EvRun cmd _ _ =>
      Some (if is_dump cmd then StExport else StApply (last cmd))
  | EvWrite path _ => Some (StWrite path)
  | EvInput _ _ => Some StConfirm
  | _ => None
  end.

Definition steps (t : list Event) : list Step := omap step_of t.

(** The eight spellings that the confirmation accepts. *)
Definition yes_spellings : list string :=
  ["yes"; "yeS"; "yEs"; "yES"; "Yes"; "YeS"; "YEs"; "YES"].

(** The arguments that select tables [ts]: a pair [-t public.<name>] for
    each, in list order. *)
Definition table_args (ts : list string) : list string :=
  flat_map (fun table => ["-t"; "public." +:+ table]) ts.

(** The arguments of [pg_dump] that do not depend on how it is called. *)
Definition dump_fixed (g : Globals) : list string :=
  ["pg_dump"; "-h"; SOURCE_HOST g; "-p"; SOURCE_PORT g; "-U"; SOURCE_USER g;
   "-d"; SOURCE_DB g; "--no-owner"; "--no-acl"; "-n"; "public"].



(** A concrete outside: the dump prints one statement, every other child
    exits with [rc] and [err] on standard error, and the user types [ans]. *)
Definition sample_outside (ans : string) (rc : Z) (err : string) : Outside :=
  mkOutside
    (fun cmd _ _ =>
       if is_dump cmd then mkProcExit 0 "CREATE TABLE t();" ""
       else mkProcExit rc "" err)
    (fun _ _ => ans).

(** A concrete start: [os.environ] holds one variable and there is no file. *)
Definition sample_world : World :=
  mkWorld {[ os_environ := {[ "PATH" := "/usr/bin" ]} ]} ∅ [].

(** The module with other values bound to the names that no function reads:
    [TARGET_PORT], [REQUIRED_TABLES] and [EXCLUDED_TABLES]. *)
Definition set_unread (port : string) (required excluded : list string)
    (g : Globals) : Globals :=
  mkGlobals (SOURCE_HOST g) (SOURCE_PORT g) (SOURCE_USER g) (SOURCE_DB g)
    (TARGET_HOST g) port (TARGET_USER g) (TARGET_DB g)
    (PASSWORD g) required excluded.

(** Does [p] occur in [s] as a run of consecutive characters? *)
Fixpoint contains (p s : string) : bool :=
  String.prefix p s ||
  match s with
  | EmptyString => false
  | String _ s' => contains p s'
  end.

(** A second concrete outside: the dump fails with status 1 and a message
    but prints the same statement; the apply exits with status 0 although it
    reports an error; the user types [Yes]. *)
Definition noisy_outside : Outside :=
  mkOutside
    (fun cmd _ _ =>
       if is_dump cmd
       then mkProcExit 1 "CREATE TABLE t();" "pg_dump: warning: skipped"
       else mkProcExit 0 "CREATE TABLE" "ERROR:  relation t already exists")
    (fun _ _ => "yes").


(** ** The heap discipline of the helpers *)

Lemma new_loc_not_environ h : new_loc h ≠ os_environ.
Proof.
  unfold new_loc. intros E.
  pose proof (is_fresh ({[os_environ]} ∪ dom h)) as F.
  rewrite E in F. set_solver.
Qed.

Lemma new_loc_unused h : h !! new_loc h = None.
Proof.
  apply not_elem_of_dom. unfold new_loc.
  pose proof (is_fresh ({[os_environ]} ∪ dom h)) as F. set_solver.
Qed.

Lemma with_env_environ g h : with_env g h !! os_environ = h !! os_environ.
Proof.
  unfold with_env. apply lookup_insert_ne. apply new_loc_not_environ.
Qed.


Lemma child_env_with_env g h : child_env g (with_env g h) = child_env g h.
Proof. unfold child_env. now rewrite with_env_environ. Qed.

(** The two lines every helper starts with. *)
Lemma helper_prologue {A} g (k : loc -> M A) w :
  (env <- dict_copy os_environ ;;
   dict_setitem env "PGPASSWORD" (PASSWORD g) ;;
   k env) w
  = k (new_loc (heap w)) (mkWorld (with_env g (heap w)) (files w) (trace w)).
Proof.
  destruct w as [h f t].
  cbv beta iota zeta delta [bind dict_copy dict_setitem deref heap files trace].
  rewrite lookup_insert_eq, insert_insert_eq. reflexivity.
Qed.

Lemma deref_with_env g h f t :
  deref (mkWorld (with_env g h) f t) (new_loc h) = child_env g h.
Proof. unfold deref, with_env. simpl. now rewrite lookup_insert_eq. Qed.

(** ** Run equations *)

Lemma subprocess_run_eq o cmd env c w :
  subprocess_run o cmd env c w =
  (Returned
     (mkCompleted (exit_status (spawn o cmd (deref w env) w))
        (if c then Some (out_text (spawn o cmd (deref w env) w)) else None)
        (if c then Some (err_text (spawn o cmd (deref w env) w)) else None)),
   mkWorld (heap w) (files w) (trace w ++ [EvRun cmd (deref w env) c])).
Proof. reflexivity. Qed.

Lemma pg_dump_schema_run o g tables include_data w :
  pg_dump_schema o g tables include_data w =
  (Returned
     (Some (out_text
        (spawn o (pg_dump_cmd g tables include_data) (child_env g (heap w))
           (mkWorld (with_env g (heap w)) (files w) (trace w))))),
   mkWorld (with_env g (heap w)) (files w)
     (trace w ++
      [EvRun (pg_dump_cmd g tables include_data) (child_env g (heap w)) true])).
Proof.
  unfold pg_dump_schema. rewrite helper_prologue.
  cbv beta zeta. unfold bind at 1. rewrite subprocess_run_eq.
  rewrite deref_with_env. reflexivity.
Qed.

Lemma run_psql_file_run o g host user db filename w :
  run_psql_file o g host user db filename w =
  (let x := spawn o (run_psql_file_cmd host user db filename)
              (child_env g (heap w))
              (mkWorld (with_env g (heap w)) (files w) (trace w)) in
   (Returned (mkCompleted (exit_status x) (Some (out_text x))
                (Some (err_text x))),
    mkWorld (with_env g (heap w)) (files w)
      (trace w ++
       [EvRun (run_psql_file_cmd host user db filename)
          (child_env g (heap w)) true]))).
Proof.
  unfold run_psql_file. rewrite helper_prologue.
  cbv beta zeta. unfold bind at 1. rewrite subprocess_run_eq.
  rewrite deref_with_env. reflexivity.
Qed.

Lemma run_psql_run o g host user db sql c w :
  run_psql o g host user db sql c w =
  (let x := spawn o (run_psql_cmd host user db sql) (child_env g (heap w))
              (mkWorld (with_env g (heap w)) (files w) (trace w)) in
   let result :=
     mkCompleted (exit_status x)
       (if c then Some (out_text x) else None)
       (if c then Some (err_text x) else None) in
   (Returned result,
    mkWorld (with_env g (heap w)) (files w)
      (trace w ++
       EvRun (run_psql_cmd host user db sql) (child_env g (heap w)) c ::
       (if negb (exit_status x =? 0)
        then [EvPrint ("Error: " +:+ fmt (stderr result))]
        else [])))).
Proof.
  unfold run_psql. rewrite helper_prologue.
  cbv beta zeta. unfold bind at 1. rewrite subprocess_run_eq.
  rewrite deref_with_env.
  cbv beta iota zeta delta [bind returncode heap files trace].
  destruct (negb _);
    cbv beta iota zeta delta [bind print emit ret heap files trace].
  - now rewrite <- app_assoc.
  - reflexivity.
Qed.

Ltac flatten_trace := rewrite <- ?app_assoc; cbn [app].

Lemma main_run o g w : main o g w = (Returned tt, main_world o g w).
Proof.
  destruct w as [h f t]. set (w := mkWorld h f t).
  unfold main.
  cbv beta iota zeta delta [bind print emit heap files trace].
  rewrite pg_dump_schema_run.
  cbv beta iota zeta delta
    [bind print emit ret len with_open_w open_w file_write file_close finally
     input heap files trace].
  rewrite lookup_insert_eq, insert_insert_eq. flatten_trace.
  match goal with
  | |- context [negb (String.eqb (lower ?a) "yes")] =>
      change a with (answer o g w)
  end.
  change (String.eqb (lower (answer o g w)) "yes") with (confirmed o g w).
  unfold main_world, main_events, after_prompt.
  destruct (confirmed o g w); cbn [negb].
  - rewrite run_psql_file_run.
    cbv beta iota zeta delta
      [bind print emit returncode stderr heap files trace].
    rewrite child_env_with_env.
    match goal with
    | |- context [exit_status ?x =? 0] => change x with (apply_exit o g w)
    end.
    unfold apply_report.
    destruct (exit_status (apply_exit o g w) =? 0);
      cbv beta iota zeta delta [bind print emit heap files trace];
      flatten_trace; reflexivity.
  - cbv beta iota zeta delta [bind print emit heap files trace].
    flatten_trace. reflexivity.
Qed.

Lemma main_world_after_prompt o g w :
  main_world o g w =
  mkWorld
    (if confirmed o g w then heap (apply_world o g w)
     else heap (prompt_world o g w))
    (files (prompt_world o g w))
    (trace (prompt_world o g w) ++ prompt_event o g w :: after_prompt o g w).
Proof.
  unfold main_world, main_events. cbn [prompt_world trace].
  now rewrite <- !app_assoc.
Qed.

Lemma confirmed_spec o g w :
  confirmed o g w = true <-> lower (answer o g w) = "yes".
Proof. apply String.eqb_eq. Qed.

Lemma declined_spec o g w :
  confirmed o g w = false <-> lower (answer o g w) <> "yes".
Proof. apply String.eqb_neq. Qed.

(** ** The confirmation gate *)

Lemma lower_char_y c : lower_char c = "y"%char -> c = "y"%char \/ c = "Y"%char.
Proof.
  destruct c as [[] [] [] [] [] [] [] []]; vm_compute; intros E;
    (discriminate E || auto).
Qed.

Lemma lower_char_e c : lower_char c = "e"%char -> c = "e"%char \/ c = "E"%char.
Proof.
  destruct c as [[] [] [] [] [] [] [] []]; vm_compute; intros E;
    (discriminate E || auto).
Qed.

Lemma lower_char_s c : lower_char c = "s"%char -> c = "s"%char \/ c = "S"%char.
Proof.
  destruct c as [[] [] [] [] [] [] [] []]; vm_compute; intros E;
    (discriminate E || auto).
Qed.

Lemma lower_yes s : lower s = "yes" <-> s ∈ yes_spellings.
Proof.
  rewrite list_elem_of_In. split.
  - destruct s as [|a [|b [|c [|d s]]]]; cbn [lower]; try discriminate.
    intros E. injection E as Ea Eb Ec.
    apply lower_char_y in Ea. apply lower_char_e in Eb.
    apply lower_char_s in Ec.
    destruct Ea as [-> | ->], Eb as [-> | ->], Ec as [-> | ->];
      cbn; auto 10.
  - cbn. intros H.
    repeat (destruct H as [<- | H]; [reflexivity|]). destruct H.
Qed.

(** C1.  The apply step is reached exactly when the lower-cased answer is
    "yes", that is, when the answer is one of the eight spellings of that word
    (so nothing with a space around it).  When it is reached, the apply
    invocation directly follows the question.  For every other answer [main]
    returns leaving the world as it was when the question was asked, with only
    the question and the line "Aborted." added to the trace: no subprocess, no
    file operation, no change to the dictionaries. *)
Theorem confirmation_gate o g w :
  let ans := answer o g w in
  let asked := prompt_world o g w in
  (lower ans = "yes" <-> ans ∈ yes_spellings) /\
  (lower ans = "yes" ->
   main o g w =
   (Returned tt,
    mkWorld (heap (apply_world o g w)) (files asked)
      (trace asked ++
       EvInput "Continue? (yes/no): " ans ::
       apply_event g w :: apply_report o g w ++ closing))) /\
  (lower ans <> "yes" ->
   main o g w =
   (Returned tt,
    mkWorld (heap asked) (files asked)
      (trace asked ++
       [EvInput "Continue? (yes/no): " ans; EvPrint "Aborted."]))).
Proof.
  intros ans asked. split; [apply lower_yes|].
  rewrite main_run, main_world_after_prompt. unfold after_prompt.
  split; intros H.
  - apply confirmed_spec in H. now rewrite H.
  - apply declined_spec in H. now rewrite H.
Qed.

(** An answer with a leading space is refused: the run ends after the
    question, having invoked the dump only. *)
Lemma confirmation_gate_witness :
  lower (answer (sample_outside " yes" 0 "") module_globals sample_world)
    <> "yes" /\
  runs (trace (main (sample_outside " yes" 0 "") module_globals
                 sample_world).2) =
    [pg_dump_cmd module_globals None false].
Proof.
  assert (N : lower (answer (sample_outside " yes" 0 "") module_globals
                       sample_world) <> "yes")
    by (vm_compute; discriminate).
  split; [exact N|].
  rewrite (proj2 (proj2 (confirmation_gate (sample_outside " yes" 0 "")
                           module_globals sample_world)) N).
  reflexivity.
Defined.

(** ** Projections of the trace of a run *)

Lemma runs_app a b : runs (a ++ b) = (runs a ++ runs b)%list.
Proof.
  induction a as [|e a IH]; [reflexivity|].
  destruct e; cbn [app runs]; now rewrite ?IH.
Qed.

Lemma runs_apply_report o g w : runs (apply_report o g w) = [].
Proof. unfold apply_report. now destruct (_ =? _). Qed.

Lemma runs_main_events o g w :
  runs (main_events o g w) =
  pg_dump_cmd g None false ::
  (if confirmed o g w then [apply_cmd g] else []).
Proof.
  unfold main_events, after_prompt.
  rewrite !runs_app. cbn [banner export_events dump_event runs app].
  destruct (confirmed o g w); cbn [prompt_event runs app apply_event];
    [|reflexivity].
  now rewrite runs_app, runs_apply_report.
Qed.

Lemma file_events_app a b :
  file_events (a ++ b) = (file_events a ++ file_events b)%list.
Proof.
  induction a as [|e a IH]; [reflexivity|].
  destruct e; cbn [app file_events]; now rewrite ?IH.
Qed.

Lemma file_events_prints t : forallb is_print t = true -> file_events t = [].
Proof.
  induction t as [|e t IH]; [reflexivity|].
  destruct e; cbn; try discriminate. exact IH.
Qed.

Lemma apply_report_prints o g w : forallb is_print (apply_report o g w) = true.
Proof. unfold apply_report. now destruct (_ =? _). Qed.

Lemma file_events_main_events o g w :
  file_events (main_events o g w) =
  [EvOpen "preprod_schema_export.sql";
   EvWrite "preprod_schema_export.sql" (out_text (dump_exit o g w));
   EvClose "preprod_schema_export.sql"].
Proof.
  unfold main_events, after_prompt.
  rewrite !file_events_app.
  cbn [banner export_events dump_event file_events app].
  destruct (confirmed o g w);
    cbn [prompt_event file_events app apply_event]; [|reflexivity].
  rewrite file_events_app, (file_events_prints _ (apply_report_prints o g w)).
  reflexivity.
Qed.

Lemma main_world_after_apply o g w :
  confirmed o g w = true ->
  main_world o g w =
  mkWorld (heap (apply_world o g w)) (files (prompt_world o g w))
    (trace (apply_world o g w) ++
     apply_event g w :: apply_report o g w ++ closing).
Proof.
  intros C. unfold main_world, main_events, after_prompt. rewrite C.
  cbn [apply_world trace]. f_equal.
  rewrite <- !app_assoc. reflexivity.
Qed.

(** ** The table list and the dump command *)

(** C2.  [main] runs the same whatever list is bound to [REQUIRED_TABLES]; the
    dump it invokes is the command that [pg_dump_schema] builds for
    [tables=None]; that command is the one written out below, it has no [-t]
    argument, and it differs from the command that passing the list would have
    produced. *)
Theorem dump_ignores_required_tables o g w ts :
  main o (set_required_tables ts g) w = main o g w /\
  trace (main o g w).2 = trace w ++ main_events o g w /\
  runs (main_events o g w) =
    pg_dump_cmd g None false ::
    (if confirmed o g w then [apply_cmd g] else []) /\
  pg_dump_cmd (set_required_tables ts module_globals) None false =
    ["pg_dump"; "-h"; "aws-1-ap-southeast-1.pooler.supabase.com";
     "-p"; "5432"; "-U"; "postgres.bamybvzufxijghzqdytu"; "-d"; "postgres";
     "--no-owner"; "--no-acl"; "-n"; "public"; "--schema-only"] /\
  ("-t" ∉ pg_dump_cmd module_globals None false) /\
  pg_dump_cmd module_globals (Some (REQUIRED_TABLES module_globals)) false
    <> pg_dump_cmd module_globals None false.
Proof.
  split.
  { unfold main.
    change (pg_dump_schema o (set_required_tables ts g))
      with (pg_dump_schema o g).
    change (run_psql_file o (set_required_tables ts g))
      with (run_psql_file o g).
    reflexivity. }
  split; [now rewrite main_run|].
  split; [apply runs_main_events|].
  split; [reflexivity|]. split.
  - rewrite list_elem_of_In. cbn. intuition discriminate.
  - intros E. apply (f_equal length) in E. vm_compute in E. discriminate.
Qed.

(** ** The apply step *)

(** C3.  Once the user has confirmed, whatever the apply subprocess hands
    back (so for every exit status, zero or not) [main] returns normally, the
    events after the apply invocation are prints only and end with the five
    closing lines, and the run has invoked exactly the dump and one apply:
    nothing is retried and nothing is undone. *)
Theorem apply_failure_still_completes o g w :
  lower (answer o g w) = "yes" ->
  exists report,
    main o g w =
    (Returned tt,
     mkWorld (heap (apply_world o g w)) (files (apply_world o g w))
       (trace (apply_world o g w) ++
        EvRun (apply_cmd g) (child_env g (heap w)) true ::
        report ++
        [EvPrint (nl +:+ "[Step 3] Migration complete!");
         EvPrint (nl +:+ "Next steps:");
         EvPrint "1. Migrate admin user manually";
         EvPrint "2. Update preprod environment variables";
         EvPrint "3. Test login functionality"])) /\
    forallb is_print report = true /\
    trace (main o g w).2 = trace w ++ main_events o g w /\
    runs (main_events o g w) = [pg_dump_cmd g None false; apply_cmd g].
Proof.
  intros H. apply confirmed_spec in H.
  exists (apply_report o g w).
  rewrite main_run, runs_main_events, H.
  split; [now rewrite (main_world_after_apply _ _ _ H)|].
  split; [apply apply_report_prints|]. split; reflexivity.
Qed.

(** With exit status 3 the run still ends with the closing lines. *)
Lemma apply_failure_still_completes_witness :
  exit_status
    (apply_exit (sample_outside "yes" 3 "ERROR:  relation exists")
       module_globals sample_world) = 3 /\
  exists t,
    trace (main (sample_outside "yes" 3 "ERROR:  relation exists")
             module_globals sample_world).2 =
    t ++ [EvPrint (nl +:+ "[Step 3] Migration complete!");
          EvPrint (nl +:+ "Next steps:");
          EvPrint "1. Migrate admin user manually";
          EvPrint "2. Update preprod environment variables";
          EvPrint "3. Test login functionality"].
Proof.
  split; [reflexivity|].
  destruct (apply_failure_still_completes
              (sample_outside "yes" 3 "ERROR:  relation exists")
              module_globals sample_world)
    as (report & E & _); [vm_compute; reflexivity|].
  rewrite E. cbn [snd trace].
  eexists. rewrite app_comm_cons, app_assoc. reflexivity.
Defined.

(** ** The export step *)

Lemma force_dump_status_out rc o cmd env w :
  out_text (spawn (force_dump_status rc o) cmd env w)
  = out_text (spawn o cmd env w).
Proof. cbn. now destruct (is_dump cmd). Qed.

Lemma force_dump_status_main_world rc o g w :
  main_world (force_dump_status rc o) g w = main_world o g w.
Proof.
  assert (X : out_text (dump_exit (force_dump_status rc o) g w)
              = out_text (dump_exit o g w))
    by apply force_dump_status_out.
  assert (E : export_events (force_dump_status rc o) g w = export_events o g w)
    by (unfold export_events; now rewrite X).
  assert (P : prompt_world (force_dump_status rc o) g w = prompt_world o g w)
    by (unfold prompt_world; now rewrite X, E).
  assert (A : answer (force_dump_status rc o) g w = answer o g w)
    by (unfold answer; now rewrite P).
  assert (Q : prompt_event (force_dump_status rc o) g w = prompt_event o g w)
    by (unfold prompt_event; now rewrite A).
  assert (C : confirmed (force_dump_status rc o) g w = confirmed o g w)
    by (unfold confirmed; now rewrite A).
  assert (W : apply_world (force_dump_status rc o) g w = apply_world o g w)
    by (unfold apply_world; now rewrite P, E, Q).
  assert (Y : apply_exit (force_dump_status rc o) g w = apply_exit o g w)
    by (unfold apply_exit; now rewrite W).
  assert (R : apply_report (force_dump_status rc o) g w = apply_report o g w)
    by (unfold apply_report; now rewrite Y).
  unfold main_world, main_events, after_prompt.
  now rewrite C, W, P, E, Q, R.
Qed.

(** C4.  [pg_dump_schema] returns the captured standard output of the child
    whatever the child's exit status, and [main] goes on to write it: a run in
    which the dump is made to exit with any status [rc] is, event for event and
    file for file, the run with the status the dump really had.  Right after
    the dump invocation come the three file operations, with no check between
    them. *)
Theorem dump_status_never_inspected o g w tables include_data rc :
  (exists w',
     pg_dump_schema o g tables include_data w =
     (Returned
        (Some (out_text
           (spawn o (pg_dump_cmd g tables include_data)
              (child_env g (heap w))
              (mkWorld (with_env g (heap w)) (files w) (trace w))))),
      w')) /\
  pg_dump_schema (force_dump_status rc o) g tables include_data w
    = pg_dump_schema o g tables include_data w /\
  main (force_dump_status rc o) g w = main o g w /\
  (exists rest,
     trace (main o g w).2 =
     trace w ++ banner ++
     EvRun (pg_dump_cmd g None false) (child_env g (heap w)) true ::
     EvOpen "preprod_schema_export.sql" ::
     EvWrite "preprod_schema_export.sql" (out_text (dump_exit o g w)) ::
     EvClose "preprod_schema_export.sql" :: rest).
Proof.
  split; [rewrite pg_dump_schema_run; eauto|].
  split; [now rewrite !pg_dump_schema_run, force_dump_status_out|].
  split; [now rewrite !main_run, force_dump_status_main_world|].
  rewrite main_run. cbn [snd main_world trace]. unfold main_events.
  cbn [export_events dump_event app]. eauto.
Qed.

(** C5.  When [main] returns, the file 'preprod_schema_export.sql' holds
    exactly the text that the dump invocation handed back on standard output,
    whatever that text is and whatever the file held before; it held the same
    text when the apply step was started; the file operations of the run are
    one open, one write of that text and one close; no other file changes. *)
Theorem exported_file_is_dump_stdout o g w :
  let sql :=
    out_text
      (spawn o (pg_dump_cmd g None false) (child_env g (heap w))
         (dump_world g w)) in
  let after := (main o g w).2 in
  files after !! "preprod_schema_export.sql" = Some sql /\
  files (apply_world o g w) !! "preprod_schema_export.sql" = Some sql /\
  file_events (main_events o g w) =
    [EvOpen "preprod_schema_export.sql";
     EvWrite "preprod_schema_export.sql" sql;
     EvClose "preprod_schema_export.sql"] /\
  trace after = trace w ++ main_events o g w /\
  (forall p, p <> "preprod_schema_export.sql" ->
             files after !! p = files w !! p).
Proof.
  intros sql after. unfold after. rewrite main_run.
  cbn [snd main_world files trace prompt_world apply_world].
  split; [apply lookup_insert_eq|].
  split; [apply lookup_insert_eq|].
  split; [apply file_events_main_events|].
  split; [reflexivity|].
  intros p N. now apply lookup_insert_ne.
Qed.

(** The file of the sample run holds the dump's output. *)
Lemma exported_file_is_dump_stdout_witness :
  files (main (sample_outside "no" 0 "") module_globals sample_world).2
    !! "preprod_schema_export.sql" = Some "CREATE TABLE t();" /\
  files (main (sample_outside "no" 0 "") module_globals sample_world).2
    !! "other.sql" = None.
Proof.
  pose proof (exported_file_is_dump_stdout (sample_outside "no" 0 "")
                module_globals sample_world) as (E & _ & _ & _ & F).
  split; [exact E|].
  rewrite F; [reflexivity | discriminate].
Defined.

(** ** The error excerpt *)

Lemma slice_upto_length n s :
  String.length (slice_upto n s) = Nat.min n (String.length s).
Proof.
  revert n. induction s as [|c s IH]; intros [|n]; cbn; auto.
Qed.

Lemma slice_upto_prefix n s : exists rest, s = slice_upto n s +:+ rest.
Proof.
  revert n. induction s as [|c s IH]; intros n.
  - exists "". now destruct n.
  - destruct n as [|n]; cbn.
    + now exists (String c s).
    + destruct (IH n) as [rest E]. exists rest.
      change (String c s = String c (slice_upto n s +:+ rest)). now f_equal.
Qed.

Lemma slice_upto_all n s : (String.length s <= n)%nat -> slice_upto n s = s.
Proof.
  revert n. induction s as [|c s IH]; intros [|n] L; cbn in *;
    try reflexivity; try lia.
  f_equal. apply IH. lia.
Qed.

Lemma stderr_excerpt_empty : stderr_excerpt (Some "") = "No error output".
Proof. reflexivity. Qed.

Lemma stderr_excerpt_text err :
  err <> "" -> stderr_excerpt (Some err) = slice_upto 2000 err.
Proof. destruct err; [congruence | reflexivity]. Qed.

(** C6.  When the user has confirmed and the apply subprocess exits with a
    status other than zero, the two events after the apply invocation are the
    line "Schema application had issues:" and one more printed line, and the
    closing lines follow.  For empty standard error that line is the text
    "No error output"; otherwise it is the first [min 2000 (len stderr)]
    characters of standard error: a prefix of it, at most 2000 characters
    long, and all of it when it has no more than 2000. *)
Theorem failure_prints_excerpt o g w :
  lower (answer o g w) = "yes" ->
  exit_status (apply_exit o g w) <> 0 ->
  let err := err_text (apply_exit o g w) in
  exists shown,
    trace (main o g w).2 =
    trace (apply_world o g w) ++
    EvRun (apply_cmd g) (child_env g (heap w)) true ::
    EvPrint "Schema application had issues:" ::
    EvPrint shown :: closing /\
    (err = "" -> shown = "No error output") /\
    (err <> "" ->
     shown = slice_upto 2000 err /\
     String.length shown = Nat.min 2000 (String.length err) /\
     (String.length shown <= 2000)%nat /\
     (exists rest, err = shown +:+ rest) /\
     ((String.length err <= 2000)%nat -> shown = err)).
Proof.
  intros H N err. apply confirmed_spec in H. apply Z.eqb_neq in N.
  exists (stderr_excerpt (Some err)).
  rewrite main_run, (main_world_after_apply _ _ _ H).
  unfold apply_report. rewrite N. split; [reflexivity|].
  split; [intros ->; reflexivity|].
  intros E. rewrite (stderr_excerpt_text _ E).
  split; [reflexivity|].
  split; [apply slice_upto_length|].
  split; [rewrite slice_upto_length; lia|].
  split; [apply slice_upto_prefix | apply slice_upto_all].
Qed.

(** A failing apply with a short message: the message is printed whole. *)
Lemma failure_prints_excerpt_witness :
  exists t,
    trace (main (sample_outside "YES" 1 "ERROR:  relation exists")
             module_globals sample_world).2 =
    t ++ EvPrint "Schema application had issues:" ::
         EvPrint "ERROR:  relation exists" :: closing.
Proof.
  destruct (failure_prints_excerpt
              (sample_outside "YES" 1 "ERROR:  relation exists")
              module_globals sample_world)
    as (shown & E & _ & S);
    [vm_compute; reflexivity | vm_compute; discriminate|].
  destruct S as (_ & _ & _ & _ & S); [vm_compute; discriminate|].
  rewrite S in E; [|vm_compute; lia]. rewrite E.
  eexists (_ ++ [_]). rewrite <- app_assoc. reflexivity.
Defined.

(** A message of 2500 characters is cut to its first 2000. *)
Example excerpt_truncates :
  stderr_excerpt (Some (str_mul "e" 2500)) = str_mul "e" 2000.
Proof. vm_compute. reflexivity. Qed.

(** ** The command line of the dump *)

Lemma fold_extend ts l :
  fold_left (fun cmd table => cmd ++ ["-t"; "public." +:+ table]) ts l
  = l ++ table_args ts.
Proof.
  revert l. induction ts as [|t ts IH]; intros l; cbn [fold_left].
  - now rewrite app_nil_r.
  - rewrite IH, <- app_assoc. reflexivity.
Qed.

Lemma pg_dump_cmd_shape g tables include_data :
  pg_dump_cmd g tables include_data =
  dump_fixed g ++ (if include_data then [] else ["--schema-only"]) ++
  table_args (default [] tables).
Proof.
  unfold pg_dump_cmd.
  destruct tables as [[|t ts]|]; cbn [default]; rewrite ?fold_extend;
    destruct include_data; cbn [negb table_args flat_map];
    rewrite <- ?app_assoc, ?app_nil_r; reflexivity.
Qed.

Lemma table_args_elem x ts :
  x ∈ table_args ts -> x = "-t" \/ exists t, t ∈ ts /\ x = "public." +:+ t.
Proof.
  induction ts as [|t ts IH]; cbn [table_args flat_map app].
  - intros H. inversion H.
  - rewrite !elem_of_cons. intros [-> | [-> | H]]; [now left | |].
    + right. exists t. split; [apply elem_of_cons; now left | reflexivity].
    + destruct (IH H) as [-> | (t' & T & ->)]; [now left|].
      right. exists t'. split; [apply elem_of_cons; now right | reflexivity].
Qed.

Lemma table_args_lookup ts i t :
  ts !! i = Some t ->
  table_args ts !! (2 * i)%nat = Some "-t" /\
  table_args ts !! (2 * i + 1)%nat = Some ("public." +:+ t).
Proof.
  revert i. induction ts as [|t' ts IH]; intros [|i] E; try discriminate.
  - injection E as ->. split; reflexivity.
  - replace (2 * S i)%nat with (S (S (2 * i))) by lia.
    cbn [table_args flat_map app]. cbn [lookup list_lookup] in *.
    exact (IH i E).
Qed.

Lemma schema_only_not_table_arg ts : "--schema-only" ∉ table_args ts.
Proof.
  intros H. apply table_args_elem in H as [H | (t & _ & H)]; discriminate H.
Qed.

Lemma table_args_length ts : length (table_args ts) = (2 * length ts)%nat.
Proof.
  induction ts as [|t ts IH]; [reflexivity|].
  cbn [table_args flat_map app length]. fold (table_args ts). rewrite IH. lia.
Qed.

Lemma lookup_after {A} (l1 l2 : list A) (i : nat) :
  (l1 ++ l2) !! (length l1 + i)%nat = l2 !! i.
Proof. induction l1 as [|x l1 IH]; [reflexivity | exact IH]. Qed.

(** C10.  The command that [pg_dump_schema] builds is the fixed flags, then
    [--schema-only] exactly when [include_data] is false, then the pair
    [-t], [public.<name>] for each table of the list in list order (so at
    positions [2i] and [2i+1] after the flags for the table at index [i]), and
    nothing else.  With the constants of the module, [--schema-only] occurs in
    it exactly when [include_data] is false, and with [tables=None] no [-t]
    occurs. *)
Theorem pg_dump_cmd_flags g tables include_data :
  let cmd := pg_dump_cmd g tables include_data in
  let flags :=
    ["pg_dump"; "-h"; SOURCE_HOST g; "-p"; SOURCE_PORT g; "-U"; SOURCE_USER g;
     "-d"; SOURCE_DB g; "--no-owner"; "--no-acl"; "-n"; "public"] ++
    (if include_data then [] else ["--schema-only"]) in
  let ts := default [] tables in
  cmd = flags ++ flat_map (fun table => ["-t"; "public." +:+ table]) ts /\
  (forall i t,
     ts !! i = Some t ->
     cmd !! (length flags + 2 * i)%nat = Some "-t" /\
     cmd !! (length flags + (2 * i + 1))%nat = Some ("public." +:+ t)) /\
  length cmd = (length flags + 2 * length ts)%nat /\
  ("--schema-only" ∈ pg_dump_cmd module_globals tables include_data
   <-> include_data = false) /\
  ("-t" ∉ pg_dump_cmd module_globals None include_data).
Proof.
  intros cmd flags ts.
  assert (E : cmd = flags ++ table_args ts).
  { unfold cmd, flags. rewrite pg_dump_cmd_shape, app_assoc. reflexivity. }
  split; [exact E|]. split; [|split; [|split]].
  - intros i t T. rewrite E, !lookup_after. now apply table_args_lookup.
  - rewrite E, length_app. f_equal. apply table_args_length.
  - rewrite pg_dump_cmd_shape, !elem_of_app. split.
    + intros [H | [H | H]].
      * apply list_elem_of_In in H. cbn in H. intuition discriminate.
      * destruct include_data; [inversion H | reflexivity].
      * now apply schema_only_not_table_arg in H.
    + intros ->. right. left. apply list_elem_of_singleton. reflexivity.
  - rewrite pg_dump_cmd_shape, !elem_of_app. intros [H | [H | H]].
    + apply list_elem_of_In in H. cbn in H. intuition discriminate.
    + destruct include_data; [inversion H|].
      apply list_elem_of_singleton in H. discriminate H.
    + inversion H.
Qed.

(** Two tables and data included: no [--schema-only], two [-t] pairs. *)
Lemma pg_dump_cmd_flags_witness :
  pg_dump_cmd module_globals (Some ["roles"; "users"]) true =
  ["pg_dump"; "-h"; "aws-1-ap-southeast-1.pooler.supabase.com"; "-p"; "5432";
   "-U"; "postgres.bamybvzufxijghzqdytu"; "-d"; "postgres"; "--no-owner";
   "--no-acl"; "-n"; "public"; "-t"; "public.roles"; "-t"; "public.users"] /\
  pg_dump_cmd module_globals (Some ["roles"; "users"]) true !! 15%nat
  = Some "-t".
Proof.
  pose proof (pg_dump_cmd_flags module_globals (Some ["roles"; "users"]) true)
    as (E & L & _).
  split; [exact E|].
  exact (proj1 (L 1%nat "users" eq_refl)).
Defined.

(** ** Environment and connection arguments *)

Lemma run_envs_app a b : run_envs (a ++ b) = run_envs a ++ run_envs b.
Proof.
  induction a as [|e a IH]; [reflexivity|].
  destruct e; cbn [app run_envs]; now rewrite ?IH.
Qed.

Lemma run_envs_prints t : forallb is_print t = true -> run_envs t = [].
Proof.
  induction t as [|e t IH]; [reflexivity|].
  destruct e; cbn; try discriminate. exact IH.
Qed.

Lemma run_envs_main_events o g w :
  run_envs (main_events o g w) =
  child_env g (heap w) ::
  (if confirmed o g w then [child_env g (heap w)] else []).
Proof.
  unfold main_events, after_prompt.
  rewrite !run_envs_app. cbn [banner export_events dump_event run_envs app].
  destruct (confirmed o g w); cbn [prompt_event run_envs app apply_event];
    [|reflexivity].
  rewrite run_envs_app, (run_envs_prints _ (apply_report_prints o g w)).
  reflexivity.
Qed.






(** ** The command line of the apply step *)

(** C9.  Every argument of the command that [run_psql_file] builds is one of
    the seven words psql, -h, -p, 5432, -U, -d, -f or one of the four values
    it was called with, whereas the command of [run_psql] has [--set] and
    [ON_ERROR_STOP=on] as its tenth and eleventh words.  With the constants of
    the module neither word occurs in the apply command of [main], nor in any
    command that a run of [main] invokes. *)
Theorem apply_lacks_on_error_stop o w :
  (forall host user db filename x,
     x ∈ run_psql_file_cmd host user db filename ->
     x ∈ ["psql"; "-h"; "-p"; "5432"; "-U"; "-d"; "-f"] \/
     x ∈ [host; user; db; filename]) /\
  (forall host user db sql,
     run_psql_cmd host user db sql !! 9%nat = Some "--set" /\
     run_psql_cmd host user db sql !! 10%nat = Some "ON_ERROR_STOP=on") /\
  apply_cmd module_globals =
    ["psql"; "-h"; "aws-1-ap-southeast-1.pooler.supabase.com"; "-p"; "5432";
     "-U"; "postgres.jqihlckqrhdxszgwuymu"; "-d"; "postgres";
     "-f"; "preprod_schema_export.sql"] /\
  trace (main o module_globals w).2
    = trace w ++ main_events o module_globals w /\
  Forall (fun cmd => ("--set" ∉ cmd) /\ ("ON_ERROR_STOP=on" ∉ cmd))
    (runs (main_events o module_globals w)).
Proof.
  split.
  { intros host user db filename x. unfold run_psql_file_cmd.
    rewrite !elem_of_cons. intuition auto. }
  split; [intros; split; reflexivity|].
  split; [reflexivity|].
  split; [now rewrite main_run|].
  rewrite runs_main_events.
  assert (D : forall x, x ∈ pg_dump_cmd module_globals None false ->
                        x <> "--set" /\ x <> "ON_ERROR_STOP=on").
  { intros x H. apply list_elem_of_In in H. cbn in H.
    intuition (subst; discriminate). }
  assert (A : forall x, x ∈ apply_cmd module_globals ->
                        x <> "--set" /\ x <> "ON_ERROR_STOP=on").
  { intros x H. apply list_elem_of_In in H. cbn in H.
    intuition (subst; discriminate). }
  constructor.
  - split; intros H; [apply D in H as [H _] | apply D in H as [_ H]];
      now apply H.
  - destruct (confirmed o module_globals w); constructor; [|constructor].
    split; intros H; [apply A in H as [H _] | apply A in H as [_ H]];
      now apply H.
Qed.

(** A file name that is not a psql option yields a command without the
    option. *)
Lemma apply_lacks_on_error_stop_witness :
  "--set" ∉ run_psql_file_cmd "db.example" "admin" "postgres" "schema.sql".
Proof.
  intros H.
  destruct (proj1 (apply_lacks_on_error_stop (sample_outside "no" 0 "")
                     sample_world) _ _ _ _ _ H) as [K | K];
    apply list_elem_of_In in K; cbn in K; intuition discriminate.
Defined.

(** ** The order of the steps *)

Lemma steps_app a b : steps (a ++ b) = steps a ++ steps b.
Proof. apply omap_app. Qed.

Lemma steps_prints t : forallb is_print t = true -> steps t = [].
Proof.
  induction t as [|e t IH]; [reflexivity|].
  destruct e; cbn; try discriminate. exact IH.
Qed.

(** C8.  The steps of a run of [main] are, in this order: the export
    invocation, the write of 'preprod_schema_export.sql', the question, and,
    exactly when the user confirmed, one apply invocation whose file argument
    is that same path.  After a confirmed question the run goes on with the
    apply invocation, its report and the closing lines, all prints; after a
    declined one it ends with "Aborted.".  So each invocation occurs at most
    once, the write comes before the apply, and when the apply starts the file
    holds what was written. *)
Theorem fixed_step_order o g w :
  trace (main o g w).2 = trace w ++ main_events o g w /\
  steps (main_events o g w) =
    StExport :: StWrite "preprod_schema_export.sql" :: StConfirm ::
    (if confirmed o g w
     then [StApply (Some "preprod_schema_export.sql")] else []) /\
  (exists before,
     forallb is_print before = true /\
     main_events o g w =
       before ++
       EvRun (pg_dump_cmd g None false) (child_env g (heap w)) true ::
       EvOpen "preprod_schema_export.sql" ::
       EvWrite "preprod_schema_export.sql" (out_text (dump_exit o g w)) ::
       EvClose "preprod_schema_export.sql" ::
       EvPrint ("Schema exported to preprod_schema_export.sql ("
                +:+ pretty (String.length (out_text (dump_exit o g w)))
                +:+ " bytes)") ::
       EvPrint (nl +:+ "[Step 2] This will apply schema to target database.") ::
       EvPrint ("Target: " +:+ TARGET_HOST g +:+ " / " +:+ TARGET_USER g) ::
       EvInput "Continue? (yes/no): " (answer o g w) :: after_prompt o g w) /\
  (lower (answer o g w) = "yes" ->
   exists report,
     forallb is_print (report ++ closing) = true /\
     after_prompt o g w =
       EvRun (apply_cmd g) (child_env g (heap w)) true :: report ++ closing) /\
  (lower (answer o g w) <> "yes" ->
   after_prompt o g w = [EvPrint "Aborted."]) /\
  files (apply_world o g w) !! "preprod_schema_export.sql"
    = Some (out_text (dump_exit o g w)).
Proof.
  split; [now rewrite main_run|].
  split.
  { unfold main_events, after_prompt. rewrite !steps_app.
    cbn [banner export_events dump_event steps omap list_omap step_of app
         prompt_event].
    destruct (confirmed o g w); [|reflexivity].
    change (StExport :: StWrite "preprod_schema_export.sql" :: StConfirm ::
            steps (apply_event g w :: apply_report o g w ++ closing) =
            [StExport; StWrite "preprod_schema_export.sql"; StConfirm;
             StApply (Some "preprod_schema_export.sql")]).
    do 3 f_equal.
    change (StApply (Some "preprod_schema_export.sql") ::
            steps (apply_report o g w ++ closing) =
            [StApply (Some "preprod_schema_export.sql")]).
    f_equal. rewrite steps_app, (steps_prints _ (apply_report_prints o g w)).
    reflexivity. }
  split.
  { exists banner. split; reflexivity. }
  split.
  { intros H. apply confirmed_spec in H. exists (apply_report o g w).
    unfold after_prompt. rewrite H. split; [|reflexivity].
    rewrite forallb_app, apply_report_prints. reflexivity. }
  split.
  { intros H. apply declined_spec in H. unfold after_prompt. now rewrite H. }
  apply lookup_insert_eq.
Qed.

(** The steps of a confirmed and of a declined sample run. *)
Lemma fixed_step_order_witness :
  steps (trace (main (sample_outside "Yes" 2 "x") module_globals
                  sample_world).2) =
    [StExport; StWrite "preprod_schema_export.sql"; StConfirm;
     StApply (Some "preprod_schema_export.sql")] /\
  steps (trace (main (sample_outside "y" 0 "") module_globals
                  sample_world).2) =
    [StExport; StWrite "preprod_schema_export.sql"; StConfirm].
Proof.
  split.
  - destruct (fixed_step_order (sample_outside "Yes" 2 "x") module_globals
                sample_world) as (T & S & _).
    rewrite T. exact S.
  - destruct (fixed_step_order (sample_outside "y" 0 "") module_globals
                sample_world) as (T & S & _).
    rewrite T. exact S.
Defined.

(** * Further properties of the helpers and of [main] *)

(** ** What [run_psql] and [run_psql_file] report *)

(** X1.  [run_psql] never raises and always returns the result of its child.
    It prints one line, "Error: " followed by the child's standard error,
    exactly when the child exits with a status other than zero; when called
    with [capture_output=False] the streams of the result are [None] and that
    line reads "Error: None". *)
Theorem run_psql_reports_failure o g host user db sql capture_output w :
  let cmd := run_psql_cmd host user db sql in
  let env :=
    <["PGPASSWORD" := PASSWORD g]> (default ∅ (heap w !! os_environ)) in
  let x := spawn o cmd env
             (mkWorld (with_env g (heap w)) (files w) (trace w)) in
  let r := (run_psql o g host user db sql capture_output w).1 in
  let w' := (run_psql o g host user db sql capture_output w).2 in
  r = Returned
        (mkCompleted (exit_status x)
           (if capture_output then Some (out_text x) else None)
           (if capture_output then Some (err_text x) else None)) /\
  (exit_status x = 0 ->
   trace w' = trace w ++ [EvRun cmd env capture_output]) /\
  (exit_status x <> 0 ->
   trace w' =
   trace w ++
   [EvRun cmd env capture_output;
    EvPrint ("Error: " +:+
             (if capture_output then err_text x else "None"))]).
Proof.
  intros cmd env x r w'. subst cmd env x r w'. rewrite run_psql_run.
  cbv zeta. unfold child_env. cbn [fst snd trace stderr].
  split; [reflexivity|]. split; intros H.
  - rewrite H. reflexivity.
  - apply Z.eqb_neq in H. rewrite H. cbn [negb].
    now destruct capture_output.
Qed.

(** An uncaptured failing call prints "Error: None". *)
Lemma run_psql_reports_failure_witness :
  trace (run_psql (sample_outside "" 2 "boom") module_globals
           "db.example" "admin" "postgres" "select 1" false sample_world).2
  = [EvRun (run_psql_cmd "db.example" "admin" "postgres" "select 1")
       {[ "PATH" := "/usr/bin"; "PGPASSWORD" := "Turun_2020-" ]} false;
     EvPrint "Error: None"].
Proof.
  pose proof (run_psql_reports_failure (sample_outside "" 2 "boom")
                module_globals "db.example" "admin" "postgres" "select 1"
                false sample_world) as (_ & _ & H).
  rewrite H; [|vm_compute; discriminate].
  vm_compute. reflexivity.
Defined.

(** X2.  [run_psql_file] prints nothing and raises nothing whatever its child
    does: for every exit status it adds the one invocation to the trace,
    leaves the files alone and returns the status with both streams captured.
    *)
Theorem run_psql_file_is_silent o g host user db filename w :
  let cmd := run_psql_file_cmd host user db filename in
  let env :=
    <["PGPASSWORD" := PASSWORD g]> (default ∅ (heap w !! os_environ)) in
  let x := spawn o cmd env
             (mkWorld (with_env g (heap w)) (files w) (trace w)) in
  let w' := (run_psql_file o g host user db filename w).2 in
  (run_psql_file o g host user db filename w).1 =
    Returned
      (mkCompleted (exit_status x) (Some (out_text x)) (Some (err_text x))) /\
  trace w' = trace w ++ [EvRun cmd env true] /\
  files w' = files w /\
  heap w' = <[new_loc (heap w) := env]> (heap w) /\
  heap w !! new_loc (heap w) = None.
Proof.
  intros cmd env x w'. subst cmd env x w'. rewrite run_psql_file_run.
  cbv zeta. unfold child_env. cbn [fst snd trace files heap].
  repeat split. apply new_loc_unused.
Qed.

(** ** What a run depends on *)

(** X3.  A run of [main] depends on the outside only through four
    observations: the text the dump prints on standard output, the answer
    typed, whether the apply exits with status zero, and, if it does not, the
    excerpt of its standard error.  Two outsides that agree on these give the
    same run, whatever the dump's status and standard error, the apply's
    standard output, its standard error after a zero status, or its standard
    error beyond the excerpt may be. *)
Theorem main_observes_only o o' g w :
  out_text (dump_exit o' g w) = out_text (dump_exit o g w) ->
  answer o' g w = answer o g w ->
  (lower (answer o g w) = "yes" ->
   (exit_status (apply_exit o' g w) =? 0)
     = (exit_status (apply_exit o g w) =? 0) /\
   (exit_status (apply_exit o g w) <> 0 ->
    stderr_excerpt (Some (err_text (apply_exit o' g w)))
      = stderr_excerpt (Some (err_text (apply_exit o g w))))) ->
  main o' g w = main o g w.
Proof.
  intros X A R. rewrite !main_run. f_equal.
  assert (E : export_events o' g w = export_events o g w)
    by (unfold export_events; now rewrite X).
  assert (P : prompt_world o' g w = prompt_world o g w)
    by (unfold prompt_world; now rewrite X, E).
  assert (Q : prompt_event o' g w = prompt_event o g w)
    by (unfold prompt_event; now rewrite A).
  assert (C : confirmed o' g w = confirmed o g w)
    by (unfold confirmed; now rewrite A).
  assert (W : apply_world o' g w = apply_world o g w)
    by (unfold apply_world; now rewrite P, E, Q).
  unfold main_world, main_events, after_prompt.
  rewrite C, W, P, E, Q.
  destruct (confirmed o g w) eqn:Y; [|reflexivity].
  apply confirmed_spec in Y. destruct (R Y) as [S T].
  unfold apply_report. rewrite S.
  destruct (exit_status (apply_exit o g w) =? 0) eqn:Z; [reflexivity|].
  apply Z.eqb_neq in Z. now rewrite (T Z).
Qed.

(** The quiet and the noisy sample outside give the same run: the failure of
    the dump and the error that the apply reports with status 0 leave no
    mark. *)
Lemma main_observes_only_witness :
  main noisy_outside module_globals sample_world
  = main (sample_outside "yes" 0 "") module_globals sample_world.
Proof.
  apply main_observes_only; [reflexivity | reflexivity |].
  intros _. split; [reflexivity|].
  intros N. exfalso. apply N. reflexivity.
Defined.

(** ** The environment of a child *)

(** X4.  In the environment that a run of [main] gives to each child,
    [PGPASSWORD] is bound to the module's password whatever [os.environ] bound
    it to, every other variable is bound exactly as in [os.environ], and no
    variable is dropped or added besides. *)
Theorem child_env_passes_parent_through o g w :
  Forall
    (fun env : gmap string string =>
       env !! "PGPASSWORD" = Some (PASSWORD g) /\
       (forall k, k <> "PGPASSWORD" ->
                  env !! k = default ∅ (heap w !! os_environ) !! k) /\
       dom env = {["PGPASSWORD"]} ∪ dom (default ∅ (heap w !! os_environ)))
    (run_envs (main_events o g w)) /\
  trace (main o g w).2 = trace w ++ main_events o g w /\
  length (run_envs (main_events o g w))
    = (if String.eqb (lower (answer o g w)) "yes" then 2 else 1)%nat.
Proof.
  assert (K : forall env : gmap string string,
    env = child_env g (heap w) ->
    env !! "PGPASSWORD" = Some (PASSWORD g) /\
    (forall k, k <> "PGPASSWORD" ->
               env !! k = default ∅ (heap w !! os_environ) !! k) /\
    dom env = {["PGPASSWORD"]} ∪ dom (default ∅ (heap w !! os_environ))).
  { intros env ->. unfold child_env.
    split; [apply lookup_insert_eq|].
    split; [intros k N; now apply lookup_insert_ne | apply dom_insert_L]. }
  rewrite run_envs_main_events, main_run. fold (confirmed o g w).
  split; [|split; [reflexivity | now destruct (confirmed o g w)]].
  destruct (confirmed o g w); repeat constructor; now apply K.
Qed.

(** A parent that already has a PGPASSWORD: the children get the module's
    password and the parent's PATH. *)
Lemma child_env_passes_parent_through_witness :
  Forall
    (fun env : gmap string string =>
       env !! "PGPASSWORD" = Some "Turun_2020-" /\
       env !! "PATH" = Some "/bin")
    (run_envs
       (main_events (sample_outside "yes" 0 "") module_globals
          (mkWorld
             {[ os_environ := {[ "PATH" := "/bin"; "PGPASSWORD" := "old" ]} ]}
             ∅ []))).
Proof.
  eapply Forall_impl;
    [exact (proj1 (child_env_passes_parent_through
                     (sample_outside "yes" 0 "") module_globals _))|].
  intros env (P & O & _). split; [exact P|].
  rewrite O; [reflexivity | discriminate].
Defined.

(** ** Reading the arguments back from the dump command *)

Lemma table_args_inj ts1 ts2 : table_args ts1 = table_args ts2 -> ts1 = ts2.
Proof.
  revert ts2. induction ts1 as [|a ts1 IH]; intros [|b ts2] E;
    try reflexivity; try discriminate E.
  cbn [table_args flat_map app] in E. injection E as N E.
  change (a = b) in N. subst b. f_equal. now apply IH.
Qed.

Lemma pg_dump_cmd_inj g tables1 include_data1 tables2 include_data2 :
  pg_dump_cmd g tables1 include_data1 = pg_dump_cmd g tables2 include_data2 ->
  include_data1 = include_data2 /\
  default [] tables1 = default [] tables2.
Proof.
  rewrite !pg_dump_cmd_shape. intros E. apply app_inv_head in E.
  destruct include_data1, include_data2; cbn [app] in E.
  - split; [reflexivity | now apply table_args_inj].
  - destruct (default [] tables1); discriminate E.
  - destruct (default [] tables2); discriminate E.
  - injection E as E. split; [reflexivity | now apply table_args_inj].
Qed.

(** X5.  The command of [pg_dump_schema] determines how it was called: two
    calls that build the same command have the same [include_data] and the
    same tables in the same order, where no list and the empty list count as
    the same. *)
Theorem pg_dump_cmd_determines_call g tables1 include_data1
    tables2 include_data2 :
  pg_dump_cmd g tables1 include_data1 = pg_dump_cmd g tables2 include_data2 ->
  include_data1 = include_data2 /\
  default [] tables1 = default [] tables2.
Proof. apply pg_dump_cmd_inj. Qed.

(** No table list and the empty one give the same command. *)
Lemma pg_dump_cmd_determines_call_witness :
  default [] (Some []) = default [] (@None (list string)).
Proof.
  exact (proj2 (pg_dump_cmd_determines_call module_globals (Some []) false
                  None false eq_refl)).
Defined.

(** X6.  Tables accumulate: the command for a list followed by further tables
    is the command for the list followed by the [-t] pairs of the further
    tables, so order and repetitions are kept; and an empty list filters
    nothing, exactly like no list. *)
Theorem pg_dump_cmd_extends g ts more include_data :
  pg_dump_cmd g (Some (ts ++ more)) include_data =
    pg_dump_cmd g (Some ts) include_data ++
    flat_map (fun table => ["-t"; "public." +:+ table]) more /\
  pg_dump_cmd g (Some []) include_data = pg_dump_cmd g None include_data /\
  (more <> [] ->
   pg_dump_cmd g (Some (ts ++ more)) include_data
     <> pg_dump_cmd g (Some ts) include_data).
Proof.
  split; [|split; [reflexivity|]].
  - rewrite !pg_dump_cmd_shape.
    change (default [] (Some (ts ++ more))) with (ts ++ more).
    change (default [] (Some ts)) with ts. unfold table_args.
    rewrite flat_map_app, <- !app_assoc. reflexivity.
  - intros N E. apply pg_dump_cmd_inj in E as [_ E].
    apply N. change (ts ++ more = ts) in E.
    apply (f_equal length) in E. rewrite length_app in E.
    destruct more; [reflexivity | cbn in E; lia].
Qed.

(** Adding a table changes the command. *)
Lemma pg_dump_cmd_extends_witness :
  pg_dump_cmd module_globals (Some (["roles"] ++ ["users"])) false
  <> pg_dump_cmd module_globals (Some ["roles"]) false.
Proof.
  apply (proj2 (proj2 (pg_dump_cmd_extends module_globals ["roles"] ["users"]
                         false))).
  discriminate.
Defined.

(** ** Constants that are bound but not read *)

(** X7.  [TARGET_PORT], [REQUIRED_TABLES] and [EXCLUDED_TABLES] are read by
    no function: with any other values bound to them, [main] and the three
    helpers do exactly the same.  In particular the apply step connects to
    port 5432 whatever [TARGET_PORT] says. *)
Theorem unread_constants_do_not_matter o g w port required excluded :
  let g' := set_unread port required excluded g in
  main o g' w = main o g w /\
  (forall tables include_data,
     pg_dump_schema o g' tables include_data w
     = pg_dump_schema o g tables include_data w) /\
  (forall host user db filename,
     run_psql_file o g' host user db filename w
     = run_psql_file o g host user db filename w) /\
  (forall host user db sql capture_output,
     run_psql o g' host user db sql capture_output w
     = run_psql o g host user db sql capture_output w) /\
  apply_cmd g' !! 3%nat = Some "-p" /\
  apply_cmd g' !! 4%nat = Some "5432".
Proof.
  intros g'. split; [|repeat split].
  unfold main, g'.
  change (pg_dump_schema o (set_unread port required excluded g))
    with (pg_dump_schema o g).
  change (run_psql_file o (set_unread port required excluded g))
    with (run_psql_file o g).
  reflexivity.
Qed.

(** ** Where the password goes *)

(** X8.  In every run of [main] the password occurs in no word of any command
    line, not even as part of a word: the children get it through
    [PGPASSWORD] only. *)
Theorem password_not_on_command_line o w :
  trace (main o module_globals w).2
    = trace w ++ main_events o module_globals w /\
  Forall
    (fun cmd =>
       Forall (fun word => contains (PASSWORD module_globals) word = false)
         cmd)
    (runs (main_events o module_globals w)) /\
  Forall
    (fun env : gmap string string =>
       env !! "PGPASSWORD" = Some (PASSWORD module_globals))
    (run_envs (main_events o module_globals w)).
Proof.
  rewrite main_run, runs_main_events, run_envs_main_events.
  split; [reflexivity|]. split.
  - destruct (confirmed o module_globals w); repeat constructor.
  - destruct (confirmed o module_globals w); repeat constructor;
      apply lookup_insert_eq.
Qed.

(** ** The excerpt, for any standard error *)

(** X9.  Whatever standard error is (a text, the empty text or [None]), the
    excerpt printed for a failed apply has between 1 and 2000 characters, so
    the line is never blank; taking the excerpt of an excerpt changes nothing;
    and for a false value it is the text "No error output". *)
Theorem stderr_excerpt_bounds (v : pystr) :
  (1 <= String.length (stderr_excerpt v) <= 2000)%nat /\
  stderr_excerpt (Some (stderr_excerpt v)) = stderr_excerpt v /\
  (truthy v = false -> stderr_excerpt v = "No error output").
Proof.
  assert (F : stderr_excerpt (Some "No error output") = "No error output")
    by (vm_compute; reflexivity).
  destruct v as [[|c s]|]; cbn [stderr_excerpt truthy].
  - split; [change (1 <= 15 <= 2000)%nat; lia|].
    split; [exact F | reflexivity].
  - assert (L : (1 <= String.length (slice_upto 2000 (String c s))
                   <= 2000)%nat).
    { rewrite slice_upto_length. cbn [String.length]. lia. }
    split; [exact L|]. split; [|discriminate].
    rewrite stderr_excerpt_text; [apply slice_upto_all; lia|].
    intros Z. rewrite Z in L. cbn in L. lia.
  - split; [change (1 <= 15 <= 2000)%nat; lia|].
    split; [exact F | reflexivity].
Qed.

(** The excerpt of [None] is the fallback text. *)
Lemma stderr_excerpt_bounds_witness : stderr_excerpt None = "No error output".
Proof.
  exact (proj2 (proj2 (stderr_excerpt_bounds None)) eq_refl).
Defined.

(** ** An empty dump *)

(** X10.  A dump that prints nothing does not stop the run: the file is
    created empty, the script reports "(0 bytes)", the question is asked, and
    on the answer yes the empty file is applied. *)
Theorem empty_dump_is_still_applied o g w :
  out_text (dump_exit o g w) = "" ->
  files (main o g w).2 !! "preprod_schema_export.sql" = Some "" /\
  (exists before after,
     trace (main o g w).2 =
     before ++
     EvOpen "preprod_schema_export.sql" ::
     EvWrite "preprod_schema_export.sql" "" ::
     EvClose "preprod_schema_export.sql" ::
     EvPrint "Schema exported to preprod_schema_export.sql (0 bytes)" ::
     after ++ EvInput "Continue? (yes/no): " (answer o g w) ::
     after_prompt o g w) /\
  (lower (answer o g w) = "yes" ->
   runs (main_events o g w) = [pg_dump_cmd g None false; apply_cmd g] /\
   files (apply_world o g w) !! "preprod_schema_export.sql" = Some "").
Proof.
  intros E. rewrite main_run.
  cbn [snd main_world files trace prompt_world apply_world]. rewrite E.
  split; [apply lookup_insert_eq|]. split.
  - exists (trace w ++ banner ++ [dump_event g w]).
    exists
      [EvPrint (nl +:+ "[Step 2] This will apply schema to target database.");
       EvPrint ("Target: " +:+ TARGET_HOST g +:+ " / " +:+ TARGET_USER g)].
    unfold main_events, export_events, prompt_event. rewrite E.
    rewrite <- !app_assoc. reflexivity.
  - intros Y. apply confirmed_spec in Y.
    rewrite runs_main_events, Y. split; [reflexivity | apply lookup_insert_eq].
Qed.

(** A dump that fails without output, answered with yes. *)
Lemma empty_dump_is_still_applied_witness :
  runs (main_events
          (mkOutside (fun _ _ _ => mkProcExit 1 "" "pg_dump: error")
             (fun _ _ => "yes"))
          module_globals sample_world)
  = [pg_dump_cmd module_globals None false; apply_cmd module_globals].
Proof.
  destruct (empty_dump_is_still_applied
              (mkOutside (fun _ _ _ => mkProcExit 1 "" "pg_dump: error")
                 (fun _ _ => "yes"))
              module_globals sample_world eq_refl) as (_ & _ & H).
  exact (proj1 (H eq_refl)).
Defined.
